(** * PaymentService (Jam3a mobile app): a shallow embedding and its properties

    The embedded code is [src/ios_src/services/PaymentService.ts]: a class of
    static methods that simulate payment providers with timers.  The model
    keeps what the TypeScript text relies on from its runtime:

    - [number] is an IEEE-754 binary64 value ([spec_float] with [prec = 53],
      [emax = 1024]); [amount / 4] is the IEEE division;
    - an [async] method never throws to its caller: an exception raised in its
      body settles the returned promise as rejected;
    - [setTimeout] defers a callback, and [Date.now()] is read when the
      callback runs;
    - reading a property of an object literal consults the object's own
      properties and then [Object.prototype]. *)

From Stdlib Require Import ZArith NArith Bool List String Ascii Lia.
From Stdlib Require Import SpecFloat DecimalString DecimalPos DecimalZ QArith Qpower.
From stdpp Require Import base option gmap strings.

Import ListNotations.
Local Open Scope string_scope.
Local Open Scope Z_scope.

(** ** Numbers *)

Definition number : Type := spec_float.

Definition prec : Z := 53.
Definition emax : Z := 1024.

(** An integer literal of the source, as the double it denotes. *)
Definition num_of_Z (z : Z) : number := binary_normalize prec emax z 0 false.

(** The [/] operator on numbers. *)
Definition js_div (x y : number) : number := SFdiv prec emax x y.

(** [ToBoolean] on a number: [0], [-0] and [NaN] are falsy. *)
Definition number_truthy (x : number) : bool :=
  match x with
  | S754_zero _ | S754_nan => false
  | _ => true
  end.

(** The decimal rendering of an integral number inside a template literal
    (used for [Date.now()] only, whose values stay far below 1e21). *)
Definition string_of_Z (z : Z) : string := NilZero.string_of_int (Z.to_int z).

(** ** Dates

    [Date.now()] is an integer count of milliseconds since the epoch.
    [toISOString] renders it as [YYYY-MM-DDTHH:mm:ss.sssZ] in UTC, with the
    expanded year [±YYYYYY] outside of the years 0 to 9999. *)

Definition msPerDay : Z := 86400000.

Fixpoint zeros (n : nat) : string :=
  match n with
  | O => EmptyString
  | S k => "0" ++ zeros k
  end.

(** A non-negative integer in at least [width] decimal digits. *)
Definition digits (width : nat) (z : Z) : string :=
  let s := string_of_Z z in
  zeros (width - String.length s) ++ s.

(** Days since 1970-01-01 to a proleptic Gregorian (year, month, day). *)
Definition civil_from_days (d : Z) : Z * Z * Z :=
  let z := d + 719468 in
  let era := z / 146097 in
  let doe := z mod 146097 in
  let yoe := (doe - doe / 1460 + doe / 36524 - doe / 146096) / 365 in
  let doy := doe - (365 * yoe + yoe / 4 - yoe / 100) in
  let mp := (5 * doy + 2) / 153 in
  let day := doy - (153 * mp + 2) / 5 + 1 in
  let month := if mp <? 10 then mp + 3 else mp - 9 in
  let year := yoe + era * 400 + (if month <=? 2 then 1 else 0) in
  (year, month, day).

Definition year_string (y : Z) : string :=
  if (0 <=? y) && (y <=? 9999) then digits 4 y
  else if y <? 0 then "-" ++ digits 6 (- y)
  else "+" ++ digits 6 y.

Definition toISOString (t : Z) : string :=
  let '(y, m, d) := civil_from_days (t / msPerDay) in
  let r := t mod msPerDay in
  year_string y ++ "-" ++ digits 2 m ++ "-" ++ digits 2 d ++ "T" ++
  digits 2 (r / 3600000) ++ ":" ++ digits 2 (r / 60000 mod 60) ++ ":" ++
  digits 2 (r / 1000 mod 60) ++ "." ++ digits 3 (r mod 1000) ++ "Z".

(** ** Values of type [any], objects and property lookup *)

#[warnings="-register-all"] Inductive JsVal : Type :=
| VUndefined
| VBoolean (b : bool)
| VNumber (x : number)
| VString (s : string)
| VObject (own : list (string * JsVal))  (* a plain object, by its own properties *)
| VBuiltin (name : string).              (* a function or object of the runtime *)

(** [ToBoolean]. *)
Definition truthy (v : JsVal) : bool :=
  match v with
  | VUndefined => false
  | VBoolean b => b
  | VNumber x => number_truthy x
  | VString s => negb (String.eqb s EmptyString)
  | VObject _ | VBuiltin _ => true
  end.

(** [a || b] yields [a] itself when it is truthy. *)
Definition js_or (a b : JsVal) : JsVal := if truthy a then a else b.

(** What every object literal inherits: the properties of [Object.prototype].
    [__proto__] is an accessor; read on an object literal it yields the
    literal's prototype, [Object.prototype] itself. *)
Definition Object_prototype : gmap string JsVal :=
  list_to_map
    [ ("constructor", VBuiltin "Object");
      ("hasOwnProperty", VBuiltin "Object.prototype.hasOwnProperty");
      ("isPrototypeOf", VBuiltin "Object.prototype.isPrototypeOf");
      ("propertyIsEnumerable", VBuiltin "Object.prototype.propertyIsEnumerable");
      ("toLocaleString", VBuiltin "Object.prototype.toLocaleString");
      ("toString", VBuiltin "Object.prototype.toString");
      ("valueOf", VBuiltin "Object.prototype.valueOf");
      ("__proto__", VBuiltin "Object.prototype");
      ("__defineGetter__", VBuiltin "Object.prototype.__defineGetter__");
      ("__defineSetter__", VBuiltin "Object.prototype.__defineSetter__");
      ("__lookupGetter__", VBuiltin "Object.prototype.__lookupGetter__");
      ("__lookupSetter__", VBuiltin "Object.prototype.__lookupSetter__") ].

(** [obj[key]] for an object literal with own properties [own]: the own
    property if there is one, else the inherited one, else [undefined]. *)
Definition get_property (own : gmap string JsVal) (key : string) : JsVal :=
  match own !! key with
  | Some v => v
  | None => default VUndefined (Object_prototype !! key)
  end.

(** The default of an optional parameter applies when the argument is
    [undefined]. *)
Definition default_param (arg dflt : JsVal) : JsVal :=
  match arg with
  | VUndefined => dflt
  | _ => arg
  end.

(** ** Effects: the ambient platform, the clock and the console *)

(** A template literal before its substitutions are rendered. *)
Inductive Piece : Type :=
| Lit (s : string)
| Num (x : number)
| Str (s : string).

Record World : Type := mkWorld {
  Platform_OS : string;            (* Platform.OS *)
  clock : Z;                       (* what Date.now() returns *)
  console : list (list Piece)      (* lines logged so far, oldest first *)
}.

Record JsError : Type := Error { message : string }.

Inductive Completion (A : Type) : Type :=
| Normal (a : A)
| Throw (e : JsError).
Arguments Normal {A} a.
Arguments Throw {A} e.

(** Synchronous code: it runs in a world, and completes normally or throws. *)
Definition Sync (A : Type) : Type := World -> Completion A * World.

#[export] Instance sync_ret : MRet Sync := fun A (a : A) w => (Normal a, w).

#[export] Instance sync_bind : MBind Sync := fun A B (k : A -> Sync B) (c : Sync A) w =>
  match c w with
  | (Normal a, w') => k a w'
  | (Throw e, w') => (Throw e, w')
  end.

Definition throw {A} (e : JsError) : Sync A := fun w => (Throw e, w).

Definition get_Platform_OS : Sync string := fun w => (Normal (Platform_OS w), w).

Definition Date_now : Sync Z := fun w => (Normal (clock w), w).

(** [new Date().toISOString()]. *)
Definition Date_toISOString : Sync string := fun w => (Normal (toISOString (clock w)), w).

Definition console_log (line : list Piece) : Sync unit :=
  fun w => (Normal tt, mkWorld (Platform_OS w) (clock w) (console w ++ [line])).

(** ** Promises and timers *)

(** A promise as the methods below build it: already settled, or waiting
    for the one timer whose callback resolves it with the value the
    callback computes. *)
Inductive Promise (A : Type) : Type :=
| Fulfilled (v : A)
| Rejected (e : JsError)
| Pending (delay : Z) (callback : Sync A).
Arguments Fulfilled {A} v.
Arguments Rejected {A} e.
Arguments Pending {A} delay callback.

(** [new Promise((resolve, reject) => { setTimeout(() => { resolve(e) }, delay) })]:
    the executor runs at once and only registers the timer. *)
Definition new_Promise_setTimeout {A} (delay : Z) (callback : Sync A) : Sync (Promise A) :=
  mret (Pending delay callback).

(** An [async] method: whatever its body does, the call itself completes
    normally with a promise.  A [throw] in the body rejects that promise; a
    returned promise is adopted. *)
Definition async {A} (body : Sync (Promise A)) : Sync (Promise A) :=
  fun w =>
    match body w with
    | (Normal p, w') => (Normal p, w')
    | (Throw e, w') => (Normal (Rejected e), w')
    end.

(** What a caller that awaits a promise observes. *)
Inductive Settlement (A : Type) : Type :=
| Resolved (v : A)
| Failed (e : JsError)
| Unsettled.
Arguments Resolved {A} v.
Arguments Failed {A} e.
Arguments Unsettled {A}.

Definition advance (ms : Z) (w : World) : World :=
  mkWorld (Platform_OS w) (clock w + ms) (console w).

(** The event loop runs a pending promise's timer once its delay has elapsed,
    [lateness] milliseconds late.  A callback that threw would leave the
    promise pending for ever.  The clock reading handed to the callback is an
    idealisation: the runtime promises neither that [Date.now()] has moved by
    the delay when the callback runs nor that it never steps back, so no
    property below rests on the clock having advanced. *)
Definition await {A} (p : Promise A) (lateness : N) (w : World) : Settlement A * World :=
  match p with
  | Fulfilled v => (Resolved v, w)
  | Rejected e => (Failed e, w)
  | Pending delay callback =>
      match callback (advance (delay + Z.of_N lateness) w) with
      | (Normal v, w') => (Resolved v, w')
      | (Throw _, w') => (Unsettled, w')
      end
  end.

(** ** The records the methods resolve with *)

Module PaymentResult.
Record t : Type := mk {
  success : bool;
  transactionId : string;
  amount : number;
  currency : string;
  paymentMethod : string;
  installments : option number;       (* present for Tabby only *)
  installmentAmount : option number;  (* present for Tabby only *)
  timestamp : string
}.
End PaymentResult.

Module Verification.
Record t : Type := mk {
  transactionId : string;
  status : string;
  verified : bool
}.
End Verification.

Module PaymentMethod.
Record t : Type := mk {
  id : string;
  name : string;
  icon : string
}.
End PaymentMethod.

(** ** The class [PaymentService] *)

Module PaymentService.

(** The log line shared by the processing methods:
    [`Processing ... payment: ${amount} ${currency} for ${description}`]. *)
Definition processing_line (prefix : string) (amount : number)
    (currency description : string) : list Piece :=
  [Lit prefix; Num amount; Lit " "; Str currency; Lit " for "; Str description].

Definition processCreditCard (amount : number) (currency description : string)
    (metadata : JsVal) : Sync (Promise PaymentResult.t) :=
  async (
    let metadata := default_param metadata (VObject []) in
    console_log (processing_line "Processing credit card payment: " amount currency description) ;;
    new_Promise_setTimeout 2000 (
      now ← Date_now ;
      iso ← Date_toISOString ;
      mret (PaymentResult.mk true ("moyasar_" ++ string_of_Z now) amount currency
              "credit-card" None None iso))).

Definition processApplePay (amount : number) (currency description : string)
    : Sync (Promise PaymentResult.t) :=
  async (
    os ← get_Platform_OS ;
    (if negb (String.eqb os "ios")
     then throw (Error "Apple Pay is only available on iOS devices")
     else mret tt) ;;
    console_log (processing_line "Processing Apple Pay payment: " amount currency description) ;;
    new_Promise_setTimeout 1500 (
      now ← Date_now ;
      iso ← Date_toISOString ;
      mret (PaymentResult.mk true ("apple_pay_" ++ string_of_Z now) amount currency
              "apple-pay" None None iso))).

Definition processGooglePay (amount : number) (currency description : string)
    : Sync (Promise PaymentResult.t) :=
  async (
    os ← get_Platform_OS ;
    (if negb (String.eqb os "android")
     then throw (Error "Google Pay is only available on Android devices")
     else mret tt) ;;
    console_log (processing_line "Processing Google Pay payment: " amount currency description) ;;
    new_Promise_setTimeout 1500 (
      now ← Date_now ;
      iso ← Date_toISOString ;
      mret (PaymentResult.mk true ("google_pay_" ++ string_of_Z now) amount currency
              "google-pay" None None iso))).

Definition processSTCPayiOS (amount : number) (currency description : string)
    : Sync (Promise PaymentResult.t) :=
  async (
    console_log (processing_line "Processing STC Pay payment on iOS: " amount currency description) ;;
    new_Promise_setTimeout 1800 (
      now ← Date_now ;
      iso ← Date_toISOString ;
      mret (PaymentResult.mk true ("stc_pay_ios_" ++ string_of_Z now) amount currency
              "stc-pay" None None iso))).

Definition processSTCPayAndroid (amount : number) (currency description : string)
    : Sync (Promise PaymentResult.t) :=
  async (
    console_log (processing_line "Processing STC Pay payment on Android: " amount currency description) ;;
    new_Promise_setTimeout 1800 (
      now ← Date_now ;
      iso ← Date_toISOString ;
      mret (PaymentResult.mk true ("stc_pay_android_" ++ string_of_Z now) amount currency
              "stc-pay" None None iso))).

Definition processTabby (amount : number) (currency description : string)
    (metadata : JsVal) : Sync (Promise PaymentResult.t) :=
  async (
    let metadata := default_param metadata (VObject []) in
    console_log (processing_line "Processing Tabby payment: " amount currency description) ;;
    new_Promise_setTimeout 2200 (
      now ← Date_now ;
      iso ← Date_toISOString ;
      mret (PaymentResult.mk true ("tabby_" ++ string_of_Z now) amount currency
              "tabby" (Some (num_of_Z 4)) (Some (js_div amount (num_of_Z 4))) iso))).

Definition verifyPayment (transactionId : string) : Sync (Promise Verification.t) :=
  async (
    console_log [Lit "Verifying payment: "; Str transactionId] ;;
    new_Promise_setTimeout 1000 (
      mret (Verification.mk transactionId "completed" true))).

Definition commonMethods : list PaymentMethod.t :=
  [ PaymentMethod.mk "credit-card" "Credit/Debit Card" "card";
    PaymentMethod.mk "mada" "Mada" "card";
    PaymentMethod.mk "stc-pay" "STC Pay" "phone-portrait";
    PaymentMethod.mk "tabby" "Tabby - Pay Later" "time" ].

Definition getAvailablePaymentMethods : Sync (Promise (list PaymentMethod.t)) :=
  async (
    os ← get_Platform_OS ;
    if String.eqb os "ios"
    then mret (Fulfilled (commonMethods ++ [PaymentMethod.mk "apple-pay" "Apple Pay" "logo-apple"])%list)
    else mret (Fulfilled (commonMethods ++ [PaymentMethod.mk "google-pay" "Google Pay" "logo-google"])%list)).

(** Standard product pricing table. *)
Definition productPrices : gmap string JsVal :=
  list_to_map
    [ ("iphone-16", VNumber (num_of_Z 799));
      ("iphone-16-pro", VNumber (num_of_Z 999));
      ("iphone-16-pro-max", VNumber (num_of_Z 1199));
      ("samsung-s25", VNumber (num_of_Z 799));
      ("samsung-s25-plus", VNumber (num_of_Z 999));
      ("samsung-s25-ultra", VNumber (num_of_Z 1199));
      ("samsung-fold6", VNumber (num_of_Z 1799));
      ("samsung-flip6", VNumber (num_of_Z 999));
      ("default", VNumber (num_of_Z 799)) ].

(** Not [async]: a plain function of its argument.  Its declared result
    type is [number]; the value it evaluates to is whatever the two
    property reads and [||] produce. *)
Definition getProductPrice (productId : string) : JsVal :=
  js_or (get_property productPrices productId) (get_property productPrices "default").

End PaymentService.

Import PaymentService.

Definition world0 : World := mkWorld "ios" 1700000000000 [].
Definition hundred : number := num_of_Z 100.

(** A caller that invokes a method and awaits the promise it gets. *)
Definition call_and_await {A} (call : Sync (Promise A)) (lateness : N) (w : World)
    : Completion (Settlement A) * World :=
  match call w with
  | (Normal p, w') => let (s, w'') := await p lateness w' in (Normal s, w'')
  | (Throw e, w') => (Throw e, w')
  end.

(** The world in which a timer registered in [w] with [delay] fires, after
    the method has logged [line]. *)
Definition fired (delay : Z) (lateness : N) (line : list Piece) (w : World) : World :=
  mkWorld (Platform_OS w) (clock w + (delay + Z.of_N lateness)) (console w ++ [line]).

(** The time-dependent fields of a result issued in world [w]. *)
Definition issued (tag : string) (w : World) (amount : number) (currency method : string)
    (installments installmentAmount : option number) : PaymentResult.t :=
  PaymentResult.mk true (tag ++ string_of_Z (clock w)) amount currency method
    installments installmentAmount (toISOString (clock w)).

(** ** What the properties observe *)

(** The rational a finite double stands for. *)
Definition number_value (x : number) : option Q :=
  match x with
  | S754_zero _ => Some 0%Q
  | S754_finite s m e => Some (inject_Z (cond_Zopp s (Zpos m)) * 2 ^ e)%Q
  | S754_infinity _ | S754_nan => None
  end.

(** A normal double (a full 53-bit significand) large enough for its quarter
    to be normal as well: at least 2^-1020 in magnitude. *)
Definition has_normal_quarter (x : number) : bool :=
  match x with
  | S754_finite _ m e => Pos.eqb (digits2_pos m) 53 && (-1072 <=? e) && (e <=? 971)
  | _ => false
  end.

(** The amounts whose quarter is shown to be exact: the zeros and the
    doubles above. *)
Definition has_exact_quarter (x : number) : bool :=
  match x with
  | S754_zero _ => true
  | _ => has_normal_quarter x
  end.

(** The smallest positive double, 2^-1074 (printed 5e-324). *)
Definition smallest_double : number := S754_finite false 1 (-1074).

(** The call itself throws: the caller gets an exception, not a promise. *)
Definition throws_synchronously {A} (call : Sync A) (w : World) (e : JsError) : Prop :=
  fst (call w) = Throw e.

(** The call hands back a promise that is already rejected, having changed
    nothing: no line logged, no timer registered, no time elapsed. *)
Definition rejects_at_once {A} (call : Sync (Promise A)) (w : World) (e : JsError) : Prop :=
  call w = (Normal (Rejected e), w).

Definition apple_pay_error : JsError := Error "Apple Pay is only available on iOS devices".
Definition google_pay_error : JsError := Error "Google Pay is only available on Android devices".

Definition android_world : World := mkWorld "android" 1700000000000 [].

(** The id of the descriptor a platform adds to the catalogue. *)
Definition platform_method_id (os : string) : string :=
  if String.eqb os "ios" then "apple-pay" else "google-pay".

(** A settled call that succeeded with the amount and currency it was given. *)
Definition echoes_success (amount : number) (currency : string)
    (out : Completion (Settlement PaymentResult.t) * World) : Prop :=
  exists r w',
    out = (Normal (Resolved r), w')
    /\ PaymentResult.success r = true
    /\ PaymentResult.amount r = amount
    /\ PaymentResult.currency r = currency.

(** ** The tab bar of [AppNavigator] *)

Module Ionicons.
Record t : Type := mk {
  name : string;
  size : number;
  color : string
}.
End Ionicons.

Module AppNavigator.

(** The [iconName] that the [tabBarIcon] callback of [MainTabNavigator]
    computes from [route.name] and [focused]. *)
Definition iconName (route_name : string) (focused : bool) : string :=
  if String.eqb route_name "Home" then (if focused then "home" else "home-outline")
  else if String.eqb route_name "Deals" then (if focused then "pricetag" else "pricetag-outline")
  else if String.eqb route_name "Profile" then (if focused then "person" else "person-outline")
  else "help-circle".

(** [tabBarIcon: ({ focused, color, size }) => ... <Ionicons name size color />]
    for the route named [route_name]. *)
Definition tabBarIcon (route_name : string) (focused : bool) (color : string) (size : number)
    : Ionicons.t :=
  Ionicons.mk (iconName route_name focused) size color.

(** The [name]s of the [Tab.Screen]s, in order. *)
Definition Tab_screens : list string := ["Home"; "Deals"; "Profile"].

End AppNavigator.

Import AppNavigator.

(** ** An index over the processing methods

    The six [process...] methods share a shape.  [Method] names them and
    [invoke] calls the named one, so that a property can be stated once for
    all of them; [metadata] reaches the two methods that take it. *)

Inductive Method : Type :=
| CreditCard | ApplePay | GooglePay | STCPayiOS | STCPayAndroid | Tabby.

Definition invoke (m : Method) (amount : number) (currency description : string)
    (metadata : JsVal) : Sync (Promise PaymentResult.t) :=
  match m with
  | CreditCard => processCreditCard amount currency description metadata
  | ApplePay => processApplePay amount currency description
  | GooglePay => processGooglePay amount currency description
  | STCPayiOS => processSTCPayiOS amount currency description
  | STCPayAndroid => processSTCPayAndroid amount currency description
  | Tabby => processTabby amount currency description metadata
  end.

(** The settlement an awaiting caller of a method observes. *)
Definition outcome (m : Method) (amount : number) (currency description : string)
    (metadata : JsVal) (lateness : N) (w : World) : Settlement PaymentResult.t * World :=
  match call_and_await (invoke m amount currency description metadata) lateness w with
  | (Normal s, w') => (s, w')
  | (Throw _, w') => (Unsettled, w')
  end.

(** What the source gives each method: the tag of its transaction ids, the
    delay of its timer, its [paymentMethod], the start of its log line, the
    platform it insists on and the error it raises elsewhere.  The lemma
    [outcome_eq] checks these tables against the methods themselves. *)

Definition id_tag (m : Method) : string :=
  match m with
  | CreditCard => "moyasar_"
  | ApplePay => "apple_pay_"
  | GooglePay => "google_pay_"
  | STCPayiOS => "stc_pay_ios_"
  | STCPayAndroid => "stc_pay_android_"
  | Tabby => "tabby_"
  end.

Definition nominal_delay (m : Method) : Z :=
  match m with
  | CreditCard => 2000
  | ApplePay | GooglePay => 1500
  | STCPayiOS | STCPayAndroid => 1800
  | Tabby => 2200
  end.

Definition method_id (m : Method) : string :=
  match m with
  | CreditCard => "credit-card"
  | ApplePay => "apple-pay"
  | GooglePay => "google-pay"
  | STCPayiOS | STCPayAndroid => "stc-pay"
  | Tabby => "tabby"
  end.

Definition log_prefix (m : Method) : string :=
  match m with
  | CreditCard => "Processing credit card payment: "
  | ApplePay => "Processing Apple Pay payment: "
  | GooglePay => "Processing Google Pay payment: "
  | STCPayiOS => "Processing STC Pay payment on iOS: "
  | STCPayAndroid => "Processing STC Pay payment on Android: "
  | Tabby => "Processing Tabby payment: "
  end.

Definition allowed_on (m : Method) (os : string) : bool :=
  match m with
  | ApplePay => String.eqb os "ios"
  | GooglePay => String.eqb os "android"
  | _ => true
  end.

Definition platform_error (m : Method) : JsError :=
  match m with
  | GooglePay => google_pay_error
  | _ => apple_pay_error
  end.

Definition plan (m : Method) (amount : number) : option number * option number :=
  match m with
  | Tabby => (Some (num_of_Z 4), Some (js_div amount (num_of_Z 4)))
  | _ => (None, None)
  end.

Definition expected (m : Method) (amount : number) (currency description : string)
    (lateness : N) (w : World) : Settlement PaymentResult.t * World :=
  if allowed_on m (Platform_OS w)
  then
    let w' := fired (nominal_delay m) lateness
                (processing_line (log_prefix m) amount currency description) w in
    (Resolved (issued (id_tag m) w' amount currency (method_id m)
                 (fst (plan m amount)) (snd (plan m amount))), w')
  else (Failed (platform_error m), w).

(** The calls a client can make, each with the lateness of its timer. *)
Inductive Call : Type :=
| Pay (m : Method) (amount : number) (currency description : string) (metadata : JsVal)
      (lateness : N)
| Verify (transactionId : string) (lateness : N)
| ListMethods.

(** The world after a call has been made and awaited. *)
Definition perform (c : Call) (w : World) : World :=
  match c with
  | Pay m amount currency description metadata lateness =>
      snd (call_and_await (invoke m amount currency description metadata) lateness w)
  | Verify transactionId lateness =>
      snd (call_and_await (verifyPayment transactionId) lateness w)
  | ListMethods =>
      snd (call_and_await getAvailablePaymentMethods 0 w)
  end.

(** Calls made one after the other, each awaited before the next. *)
Definition perform_all (cs : list Call) (w : World) : World :=
  fold_left (fun w c => perform c w) cs w.

(** The [*] operator on numbers. *)
Definition js_mul (x y : number) : number := SFmul prec emax x y.

(** Reading back the decimal rendering of an integer. *)
Definition Z_of_string (s : string) : option Z :=
  option_map Z.of_int (NilZero.int_of_string s).

(** The property names an object literal inherits. *)
Definition inherited_names : list string :=
  [ "constructor"; "hasOwnProperty"; "isPrototypeOf"; "propertyIsEnumerable";
    "toLocaleString"; "toString"; "valueOf"; "__proto__"; "__defineGetter__";
    "__defineSetter__"; "__lookupGetter__"; "__lookupSetter__" ].

Definition web_world : World := mkWorld "web" 1700000000000 [].

(** * Lemmas *)

(** ** The runtime helpers on known values *)

Example toISOString_epoch : toISOString 0 = "1970-01-01T00:00:00.000Z".
Proof. reflexivity. Qed.

Example toISOString_2023 : toISOString 1700000000000 = "2023-11-14T22:13:20.000Z".
Proof. vm_compute. reflexivity. Qed.

Example toISOString_before_epoch : toISOString (-1) = "1969-12-31T23:59:59.999Z".
Proof. vm_compute. reflexivity. Qed.

Example toISOString_year_10000 :
  toISOString 253402300800000 = "+010000-01-01T00:00:00.000Z".
Proof. vm_compute. reflexivity. Qed.

Example num_of_Z_4 : num_of_Z 4 = S754_finite false 4503599627370496 (-50).
Proof. reflexivity. Qed.

Example string_of_Z_ex : string_of_Z 1700000000000 = "1700000000000".
Proof. reflexivity. Qed.

(** ** Evaluation lemmas: what each method does, in full *)

Section Evaluation.
Variables (amount : number) (currency description : string).
Variables (lateness : N) (w : World).

Lemma processCreditCard_eval metadata :
  let w' := fired 2000 lateness
              (processing_line "Processing credit card payment: " amount currency description) w in
  call_and_await (processCreditCard amount currency description metadata) lateness w
  = (Normal (Resolved (issued "moyasar_" w' amount currency "credit-card" None None)), w').
Proof. reflexivity. Qed.

Lemma processSTCPayiOS_eval :
  let w' := fired 1800 lateness
              (processing_line "Processing STC Pay payment on iOS: " amount currency description) w in
  call_and_await (processSTCPayiOS amount currency description) lateness w
  = (Normal (Resolved (issued "stc_pay_ios_" w' amount currency "stc-pay" None None)), w').
Proof. reflexivity. Qed.

Lemma processSTCPayAndroid_eval :
  let w' := fired 1800 lateness
              (processing_line "Processing STC Pay payment on Android: " amount currency description) w in
  call_and_await (processSTCPayAndroid amount currency description) lateness w
  = (Normal (Resolved (issued "stc_pay_android_" w' amount currency "stc-pay" None None)), w').
Proof. reflexivity. Qed.

Lemma processTabby_eval metadata :
  let w' := fired 2200 lateness
              (processing_line "Processing Tabby payment: " amount currency description) w in
  call_and_await (processTabby amount currency description metadata) lateness w
  = (Normal (Resolved (issued "tabby_" w' amount currency "tabby"
                         (Some (num_of_Z 4)) (Some (js_div amount (num_of_Z 4))))), w').
Proof. reflexivity. Qed.

Lemma processApplePay_eval_ios :
  Platform_OS w = "ios" ->
  let w' := fired 1500 lateness
              (processing_line "Processing Apple Pay payment: " amount currency description) w in
  call_and_await (processApplePay amount currency description) lateness w
  = (Normal (Resolved (issued "apple_pay_" w' amount currency "apple-pay" None None)), w').
Proof.
  intros Hos. unfold call_and_await, processApplePay, async, mbind, sync_bind, get_Platform_OS.
  rewrite Hos. reflexivity.
Qed.

Lemma processApplePay_eval_other :
  Platform_OS w <> "ios" ->
  processApplePay amount currency description w
  = (Normal (Rejected (Error "Apple Pay is only available on iOS devices")), w).
Proof.
  intros Hos. unfold processApplePay, async, mbind, sync_bind, get_Platform_OS.
  destruct (String.eqb_spec (Platform_OS w) "ios") as [E | _]; [contradiction | reflexivity].
Qed.

Lemma processGooglePay_eval_android :
  Platform_OS w = "android" ->
  let w' := fired 1500 lateness
              (processing_line "Processing Google Pay payment: " amount currency description) w in
  call_and_await (processGooglePay amount currency description) lateness w
  = (Normal (Resolved (issued "google_pay_" w' amount currency "google-pay" None None)), w').
Proof.
  intros Hos. unfold call_and_await, processGooglePay, async, mbind, sync_bind, get_Platform_OS.
  rewrite Hos. reflexivity.
Qed.

Lemma processGooglePay_eval_other :
  Platform_OS w <> "android" ->
  processGooglePay amount currency description w
  = (Normal (Rejected (Error "Google Pay is only available on Android devices")), w).
Proof.
  intros Hos. unfold processGooglePay, async, mbind, sync_bind, get_Platform_OS.
  destruct (String.eqb_spec (Platform_OS w) "android") as [E | _]; [contradiction | reflexivity].
Qed.

End Evaluation.

(** An [async] method completes normally whatever its body does. *)
Lemma async_never_throws {A} (body : Sync (Promise A)) (w : World) :
  exists p w', async body w = (Normal p, w').
Proof.
  unfold async. destruct (body w) as [[p | e] w']; eauto.
Qed.

(** ** Division by four on doubles *)

Lemma fexp_eq x : fexp prec emax x = Z.max (x - 53) (-1074).
Proof. reflexivity. Qed.

Lemma div_eucl_pow2 (m : positive) (k : Z) :
  0 <= k ->
  Z.div_eucl (Zpos m * 2 ^ k * 4503599627370496) 4503599627370496 = (Zpos m * 2 ^ k, 0).
Proof.
  intros Hk.
  assert (0 < 2 ^ k) as Hpos by (apply Z.pow_pos_nonneg; lia).
  set (a := Zpos m * 2 ^ k) in *.
  pose proof (Z.div_eucl_eq (a * 4503599627370496) 4503599627370496 ltac:(lia)) as Heq.
  pose proof (Z.mod_pos_bound (a * 4503599627370496) 4503599627370496 ltac:(lia)) as Hb.
  unfold Z.modulo in Hb.
  destruct (Z.div_eucl (a * 4503599627370496) 4503599627370496) as [q r].
  assert (q = a /\ r = 0) as [-> ->] by lia.
  reflexivity.
Qed.

(** The quotient before rounding, when the result stays normal: one extra
    low bit, which is zero. *)
Lemma SFdiv_core_4 (m : positive) (e : Z) :
  digits2_pos m = 53%positive -> -1071 <= e ->
  SFdiv_core_binary prec emax (Zpos m) e 4503599627370496 (-50)
  = (Zpos m~0, e - 3, loc_Exact).
Proof.
  intros Hd He. unfold SFdiv_core_binary.
  change IntDef.Z.min with Z.min. change IntDef.Z.div_eucl with Z.div_eucl.
  change IntDef.Z.shiftl with Z.shiftl.
  unfold Zdigits2. rewrite Hd.
  change (Z.pos (digits2_pos 4503599627370496)) with 53.
  rewrite fexp_eq.
  replace (Z.min (Z.max (53 + e - (53 + -50) - 53) (-1074)) (e - -50)) with (e - 3) by lia.
  replace (e - -50 - (e - 3)) with 53 by lia.
  cbv zeta iota.
  rewrite Z.shiftl_mul_pow2 by lia.
  replace (Zpos m * 2 ^ 53) with (Zpos m * 2 ^ 1 * 4503599627370496) by lia.
  rewrite div_eucl_pow2 by lia.
  replace (Zpos m * 2 ^ 1) with (Zpos m~0) by lia.
  reflexivity.
Qed.

(** The same at the lowest exponent whose quarter is still normal. *)
Lemma SFdiv_core_4_low (m : positive) :
  digits2_pos m = 53%positive ->
  SFdiv_core_binary prec emax (Zpos m) (-1072) 4503599627370496 (-50)
  = (Zpos m, -1074, loc_Exact).
Proof.
  intros Hd. unfold SFdiv_core_binary.
  change IntDef.Z.min with Z.min. change IntDef.Z.div_eucl with Z.div_eucl.
  change IntDef.Z.shiftl with Z.shiftl.
  unfold Zdigits2. rewrite Hd.
  change (Z.pos (digits2_pos 4503599627370496)) with 53.
  rewrite fexp_eq.
  change (Z.min (Z.max (53 + -1072 - (53 + -50) - 53) (-1074)) (-1072 - -50)) with (-1074).
  change (-1072 - -50 - -1074) with 52.
  cbv zeta iota.
  rewrite Z.shiftl_mul_pow2 by lia.
  replace (Zpos m * 2 ^ 52) with (Zpos m * 2 ^ 0 * 4503599627370496) by lia.
  rewrite div_eucl_pow2 by lia.
  replace (Zpos m * 2 ^ 0) with (Zpos m) by lia.
  reflexivity.
Qed.

Lemma shr_fexp_54 (m : positive) (e : Z) :
  digits2_pos m = 53%positive -> -1071 <= e ->
  shr_fexp prec emax (Zpos m~0) (e - 3) loc_Exact
  = (Build_shr_record (Zpos m) false false, e - 2).
Proof.
  intros Hd He. unfold shr_fexp, Zdigits2. cbn [digits2_pos]. rewrite Hd, fexp_eq.
  replace (Z.max (Z.pos (Pos.succ 53) + (e - 3) - 53) (-1074) - (e - 3)) with 1 by lia.
  cbn [shr shr_record_of_loc iter_pos shr_1].
  f_equal. change IntDef.Z.add with Z.add. lia.
Qed.

Lemma shr_fexp_53 (m : positive) (e : Z) :
  digits2_pos m = 53%positive -> -1074 <= e ->
  shr_fexp prec emax (Zpos m) e loc_Exact = (Build_shr_record (Zpos m) false false, e).
Proof.
  intros Hd He. unfold shr_fexp, Zdigits2. rewrite Hd, fexp_eq.
  replace (Z.max (53 + e - 53) (-1074) - e) with 0 by lia.
  reflexivity.
Qed.

(** Dividing a normal double by 4 keeps its sign and significand and lowers
    its exponent by two, as long as the quotient is normal too. *)
Lemma js_div_4_normal (s : bool) (m : positive) (e : Z) :
  digits2_pos m = 53%positive -> -1072 <= e <= 971 ->
  js_div (S754_finite s m e) (num_of_Z 4) = S754_finite s m (e - 2).
Proof.
  intros Hd He.
  change (num_of_Z 4) with (S754_finite false 4503599627370496 (-50)).
  unfold js_div, SFdiv. rewrite xorb_false_r.
  assert (e = -1072 \/ -1071 <= e) as [-> | He'] by lia.
  - rewrite SFdiv_core_4_low by assumption.
    unfold binary_round_aux.
    rewrite shr_fexp_53 by (assumption || lia).
    cbn [shr_m loc_of_shr_record round_nearest_even].
    rewrite shr_fexp_53 by (assumption || lia).
    reflexivity.
  - rewrite SFdiv_core_4 by assumption.
    unfold binary_round_aux.
    rewrite shr_fexp_54 by assumption.
    cbn [shr_m loc_of_shr_record round_nearest_even].
    rewrite shr_fexp_53 by (assumption || lia).
    cbn [shr_m]. change IntDef.Z.leb with Z.leb.
    destruct (Z.leb_spec (e - 2) (emax - prec)) as [_ | H];
      [reflexivity | unfold emax, prec in H; lia].
Qed.

(** ... and that double is a quarter of the dividend, as a rational. *)
Lemma quarter_value (s : bool) (m : positive) (e : Z) :
  (inject_Z (cond_Zopp s (Zpos m)) * 2 ^ (e - 2) * 4 == inject_Z (cond_Zopp s (Zpos m)) * 2 ^ e)%Q.
Proof.
  replace e with ((e - 2) + 2) at 2 by lia.
  rewrite Qpower_plus by discriminate.
  change (2 ^ 2)%Q with 4%Q. ring.
Qed.

(** Far below that range the quotient underflows and is rounded: a quarter
    of the smallest positive double is zero. *)
Example js_div_4_underflow :
  js_div (S754_finite false 1 (-1074)) (num_of_Z 4) = S754_zero false.
Proof. reflexivity. Qed.

Example js_div_4_special :
  js_div S754_nan (num_of_Z 4) = S754_nan
  /\ js_div (S754_infinity true) (num_of_Z 4) = S754_infinity true
  /\ js_div (S754_zero true) (num_of_Z 4) = S754_zero true.
Proof. repeat split. Qed.

Lemma js_div_4_exact (x : number) :
  has_normal_quarter x = true ->
  exists q v : Q,
    number_value (js_div x (num_of_Z 4)) = Some q
    /\ number_value x = Some v
    /\ (q * 4 == v)%Q.
Proof.
  destruct x as [| | | s m e]; try discriminate. cbn [has_normal_quarter].
  intros H. apply andb_prop in H as [H He2]. apply andb_prop in H as [Hd He1].
  apply Pos.eqb_eq in Hd. apply Z.leb_le in He1, He2.
  rewrite js_div_4_normal by (assumption || lia).
  eexists _, _. split; [reflexivity |]. split; [reflexivity |].
  apply quarter_value.
Qed.

Lemma js_div_4_exact_or_zero (x : number) :
  has_exact_quarter x = true ->
  exists q v : Q,
    number_value (js_div x (num_of_Z 4)) = Some q
    /\ number_value x = Some v
    /\ (q * 4 == v)%Q.
Proof.
  destruct x as [s | | | s m e]; cbn [has_exact_quarter]; try discriminate.
  - intros _. exists 0%Q, 0%Q. repeat split.
  - apply js_div_4_exact.
Qed.

(** ** Strings *)

Lemma prefix_append (s t : string) : String.prefix s (s ++ t) = true.
Proof.
  induction s as [| a s IH].
  - destruct t; reflexivity.
  - change (String a s ++ t) with (String a (s ++ t)). cbn [String.prefix].
    destruct (ascii_dec a a) as [_ | Hne]; [exact IH | contradiction].
Qed.

(** ** The price table *)

Lemma productPrices_numbers (productId : string) (v : JsVal) :
  productPrices !! productId = Some v ->
  exists x, v = VNumber x /\ number_truthy x = true.
Proof.
  intros H. apply elem_of_list_to_map_2 in H.
  repeat (apply elem_of_cons in H as [H | H];
          [injection H as _ ->; eexists; split; reflexivity |]).
  apply elem_of_nil in H. contradiction.
Qed.

(** Away from the names every object inherits, the lookup is the table's
    entry, or the default entry when the table has none. *)
Lemma getProductPrice_outside_prototype (productId : string) :
  Object_prototype !! productId = None ->
  getProductPrice productId = default (VNumber (num_of_Z 799)) (productPrices !! productId)
  /\ exists x, getProductPrice productId = VNumber x.
Proof.
  intros Hproto.
  assert (getProductPrice productId
          = default (VNumber (num_of_Z 799)) (productPrices !! productId)) as Heq.
  { unfold getProductPrice, get_property at 1 2, js_or.
    destruct (productPrices !! productId) as [v |] eqn:Hown.
    - destruct (productPrices_numbers _ _ Hown) as (x & -> & Hx).
      cbn [truthy default from_option id]. rewrite Hx. reflexivity.
    - rewrite Hproto. reflexivity. }
  split; [exact Heq |]. rewrite Heq.
  destruct (productPrices !! productId) as [v |] eqn:Hown; cbn [default from_option id].
  - destruct (productPrices_numbers _ _ Hown) as (x & -> & _). eauto.
  - eauto.
Qed.

(** An inherited name that the table does not define reaches the caller as
    the inherited member. *)
Lemma getProductPrice_inherited (productId : string) (v : JsVal) :
  productPrices !! productId = None ->
  Object_prototype !! productId = Some v ->
  truthy v = true ->
  getProductPrice productId = v.
Proof.
  intros Hown Hproto Hv. unfold getProductPrice, js_or, get_property.
  rewrite Hown, Hproto. cbn [default from_option id]. rewrite Hv. reflexivity.
Qed.

(** * Properties *)

(** ** C1: [processApplePay] and the platform *)

(** C1, as the specification words it, at a concrete call: on Android the
    call would have to throw to its caller.  It does not: the call completes
    normally, and no exception whatsoever reaches the caller synchronously. *)
Lemma processApplePay_android_does_not_throw :
  ~ exists e, throws_synchronously (processApplePay hundred "SAR" "deal") android_world e.
Proof.
  intros [e H]. unfold throws_synchronously in H. vm_compute in H. discriminate H.
Qed.

(** C1 (amended): for every amount, currency and description, on the platform
    ["ios"] the awaited call resolves with [success = true], payment method
    ["apple-pay"] and the given amount and currency; on every other platform
    the call returns a promise that is already rejected with the Apple Pay
    error, before anything is logged, any timer is registered or any time
    passes, so that the awaiting caller sees the failure through the
    promise. *)
Theorem processApplePay_platform_gate
    (amount : number) (currency description : string) (lateness : N) (w : World) :
  if String.eqb (Platform_OS w) "ios"
  then exists r w',
         call_and_await (processApplePay amount currency description) lateness w
         = (Normal (Resolved r), w')
         /\ PaymentResult.success r = true
         /\ PaymentResult.paymentMethod r = "apple-pay"
         /\ PaymentResult.amount r = amount
         /\ PaymentResult.currency r = currency
  else rejects_at_once (processApplePay amount currency description) w apple_pay_error
       /\ call_and_await (processApplePay amount currency description) lateness w
          = (Normal (Failed apple_pay_error), w).
Proof.
  destruct (String.eqb_spec (Platform_OS w) "ios") as [Hos | Hos].
  - eexists _, _. rewrite processApplePay_eval_ios by assumption.
    repeat split; reflexivity.
  - unfold rejects_at_once, call_and_await.
    rewrite processApplePay_eval_other by assumption. split; reflexivity.
Qed.

(** ** C2: [processGooglePay] and the platform *)

(** C2, as the specification words it, at a concrete call: on iOS the call
    would have to throw to its caller, and it does not. *)
Lemma processGooglePay_ios_does_not_throw :
  ~ exists e, throws_synchronously (processGooglePay hundred "SAR" "deal") world0 e.
Proof.
  intros [e H]. unfold throws_synchronously in H. vm_compute in H. discriminate H.
Qed.

(** C2 (amended): for every amount, currency and description, on the platform
    ["android"] the awaited call resolves with [success = true], payment
    method ["google-pay"] and the given amount and currency; on every other
    platform the call returns a promise that is already rejected with the
    Google Pay error, before anything is logged, any timer is registered or
    any time passes. *)
Theorem processGooglePay_platform_gate
    (amount : number) (currency description : string) (lateness : N) (w : World) :
  if String.eqb (Platform_OS w) "android"
  then exists r w',
         call_and_await (processGooglePay amount currency description) lateness w
         = (Normal (Resolved r), w')
         /\ PaymentResult.success r = true
         /\ PaymentResult.paymentMethod r = "google-pay"
         /\ PaymentResult.amount r = amount
         /\ PaymentResult.currency r = currency
  else rejects_at_once (processGooglePay amount currency description) w google_pay_error
       /\ call_and_await (processGooglePay amount currency description) lateness w
          = (Normal (Failed google_pay_error), w).
Proof.
  destruct (String.eqb_spec (Platform_OS w) "android") as [Hos | Hos].
  - eexists _, _. rewrite processGooglePay_eval_android by assumption.
    repeat split; reflexivity.
  - unfold rejects_at_once, call_and_await.
    rewrite processGooglePay_eval_other by assumption. split; reflexivity.
Qed.

(** ** C3: Tabby installments *)

(** C3, as the specification words it, at a concrete amount: for the smallest
    positive double the installment amount would have to be exactly a quarter
    of it.  No resolved result is: the quotient underflows to zero. *)
Lemma processTabby_smallest_double_not_a_quarter :
  ~ exists (r : PaymentResult.t) (w' : World) (x : number) (q v : Q),
      call_and_await (processTabby smallest_double "SAR" "deal" VUndefined) 0 world0
      = (Normal (Resolved r), w')
      /\ PaymentResult.installmentAmount r = Some x
      /\ number_value x = Some q
      /\ number_value smallest_double = Some v
      /\ (q * 4 == v)%Q.
Proof.
  intros (r & w' & x & q & v & Hrun & Hx & Hq & Hv & Hqv).
  rewrite processTabby_eval in Hrun. injection Hrun as <- _.
  cbn [issued PaymentResult.installmentAmount] in Hx.
  injection Hx as <-.
  change (js_div smallest_double (num_of_Z 4)) with (S754_zero false) in Hq.
  cbn [number_value] in Hq. injection Hq as <-.
  cbn [number_value smallest_double] in Hv. injection Hv as <-.
  unfold Qeq in Hqv. vm_compute in Hqv. discriminate Hqv.
Qed.

(** C3 (amended): for every amount (and whatever the other arguments, the
    clock and the timer's lateness), [processTabby] resolves, with
    [success = true], payment method ["tabby"], [installments = 4] and
    [installmentAmount] the double quotient [amount / 4].  For an amount of
    100 that quotient is 25, and for the zeros and every normal double whose
    quarter is normal the quotient is, as a rational, exactly a quarter of
    the amount; for smaller amounts the quotient is the rounded one. *)
Theorem processTabby_installments
    (amount : number) (currency description : string) (metadata : JsVal)
    (lateness : N) (w : World) :
  exists r w',
    call_and_await (processTabby amount currency description metadata) lateness w
    = (Normal (Resolved r), w')
    /\ PaymentResult.success r = true
    /\ PaymentResult.paymentMethod r = "tabby"
    /\ PaymentResult.installments r = Some (num_of_Z 4)
    /\ PaymentResult.installmentAmount r = Some (js_div amount (num_of_Z 4))
    /\ (amount = num_of_Z 100 -> PaymentResult.installmentAmount r = Some (num_of_Z 25))
    /\ (has_exact_quarter amount = true ->
        exists (x : number) (q v : Q),
          PaymentResult.installmentAmount r = Some x
          /\ number_value x = Some q
          /\ number_value amount = Some v
          /\ (q * 4 == v)%Q).
Proof.
  eexists _, _. rewrite processTabby_eval.
  repeat split; try reflexivity.
  - intros ->. reflexivity.
  - intros Hn. destruct (js_div_4_exact_or_zero amount Hn) as (q & v & Hq & Hv & Hqv).
    exists (js_div amount (num_of_Z 4)), q, v. repeat split; assumption.
Qed.

Lemma processTabby_installments_witness :
  exists r w',
    call_and_await (processTabby hundred "SAR" "deal" VUndefined) 3 world0
    = (Normal (Resolved r), w')
    /\ PaymentResult.installments r = Some (num_of_Z 4)
    /\ PaymentResult.installmentAmount r = Some (num_of_Z 25)
    /\ exists (x : number) (q v : Q),
         PaymentResult.installmentAmount r = Some x
         /\ number_value x = Some q
         /\ number_value hundred = Some v
         /\ (q * 4 == v)%Q.
Proof.
  destruct (processTabby_installments hundred "SAR" "deal" VUndefined 3 world0)
    as (r & w' & Hrun & _ & _ & Hn & _ & H100 & Hquarter).
  exists r, w'. split; [exact Hrun |]. split; [exact Hn |].
  split; [exact (H100 eq_refl) | exact (Hquarter eq_refl)].
Defined.

(** ** C4: the catalogue of payment methods *)

(** C4: on every platform value the call returns (as an already fulfilled
    promise, leaving the world as it was) exactly five descriptors: the four
    common ones, the same and in the same order whatever the platform, then
    one more, whose id is ["apple-pay"] on ["ios"] and ["google-pay"] on
    every other platform value. *)
Theorem getAvailablePaymentMethods_catalogue (w : World) :
  exists (l : list PaymentMethod.t) (extra : PaymentMethod.t),
    getAvailablePaymentMethods w = (Normal (Fulfilled l), w)
    /\ l = (commonMethods ++ [extra])%list
    /\ length l = 5%nat
    /\ length commonMethods = 4%nat
    /\ PaymentMethod.id extra = platform_method_id (Platform_OS w)
    /\ map PaymentMethod.id l
       = ["credit-card"; "mada"; "stc-pay"; "tabby"; platform_method_id (Platform_OS w)].
Proof.
  unfold getAvailablePaymentMethods, async, mbind, sync_bind, get_Platform_OS,
    platform_method_id.
  destruct (String.eqb (Platform_OS w) "ios");
    eexists _, _; repeat split; reflexivity.
Qed.

(** ** C5: [getProductPrice] on inherited property names *)

(** C5 fails on the code at the identifier ["constructor"], which is not in
    the price table: the lookup finds the member every object literal
    inherits, that value is truthy, and it is returned in place of the
    default price.  What comes back is the [Object] function, not a number. *)
Theorem getProductPrice_constructor :
  productPrices !! "constructor" = None
  /\ getProductPrice "constructor" = VBuiltin "Object"
  /\ forall x : number, getProductPrice "constructor" <> VNumber x.
Proof.
  split; [reflexivity |]. split; [reflexivity |].
  intros x H. vm_compute in H. discriminate H.
Qed.

(** ** C6: credit card payments *)

(** C6: for all amounts, currencies and descriptions (and whatever the
    metadata, the clock and the timer's lateness) the awaited call resolves,
    with [success = true], payment method ["credit-card"], the given amount
    and currency, and a transaction id that begins with ["moyasar_"]. *)
Theorem processCreditCard_resolves
    (amount : number) (currency description : string) (metadata : JsVal)
    (lateness : N) (w : World) :
  exists r w',
    call_and_await (processCreditCard amount currency description metadata) lateness w
    = (Normal (Resolved r), w')
    /\ PaymentResult.success r = true
    /\ PaymentResult.paymentMethod r = "credit-card"
    /\ PaymentResult.amount r = amount
    /\ PaymentResult.currency r = currency
    /\ String.prefix "moyasar_" (PaymentResult.transactionId r) = true.
Proof.
  eexists _, _. rewrite processCreditCard_eval.
  repeat split; try reflexivity. apply prefix_append.
Qed.

(** ** C7: payment verification *)

(** C7: for every string, whatever has been logged or issued before and
    whatever the clock, the awaited call resolves with the record made of
    that string, the status ["completed"] and [verified = true]. *)
Theorem verifyPayment_echoes (transactionId : string) (lateness : N) (w : World) :
  exists w',
    call_and_await (verifyPayment transactionId) lateness w
    = (Normal (Resolved (Verification.mk transactionId "completed" true)), w').
Proof.
  eexists. reflexivity.
Qed.

(** ** C8: three prices *)

(** C8: the price of ["iphone-16"] is 799, that of ["samsung-fold6"] is 1799,
    and the unrecognised ["unknown-id-xyz"] gets the default, 799. *)
Theorem getProductPrice_examples :
  getProductPrice "iphone-16" = VNumber (num_of_Z 799)
  /\ getProductPrice "samsung-fold6" = VNumber (num_of_Z 1799)
  /\ getProductPrice "unknown-id-xyz" = VNumber (num_of_Z 799)
  /\ productPrices !! "unknown-id-xyz" = None.
Proof.
  repeat split; vm_compute; reflexivity.
Qed.

(** ** C9: metadata *)

(** C9: two calls of [processCreditCard], or of [processTabby], that differ
    in their metadata only and run in the same world with the same timer
    lateness return the same promise and log the same line, and the records
    they resolve with are equal. *)
Theorem metadata_has_no_effect
    (amount : number) (currency description : string) (metadata1 metadata2 : JsVal)
    (lateness : N) (w : World) :
  processCreditCard amount currency description metadata1 w
  = processCreditCard amount currency description metadata2 w
  /\ call_and_await (processCreditCard amount currency description metadata1) lateness w
     = call_and_await (processCreditCard amount currency description metadata2) lateness w
  /\ processTabby amount currency description metadata1 w
     = processTabby amount currency description metadata2 w
  /\ call_and_await (processTabby amount currency description metadata1) lateness w
     = call_and_await (processTabby amount currency description metadata2) lateness w.
Proof.
  repeat split; reflexivity.
Qed.

(** ** C10: no validation *)

(** C10: for any number given as amount (zero, negative, infinite and NaN
    included) and any currency and description, [processCreditCard],
    [processSTCPayiOS], [processSTCPayAndroid] and [processTabby] resolve
    with [success = true] and the amount and currency they were given. *)
Theorem no_validation
    (amount : number) (currency description : string) (metadata : JsVal)
    (lateness : N) (w : World) :
  echoes_success amount currency
    (call_and_await (processCreditCard amount currency description metadata) lateness w)
  /\ echoes_success amount currency
       (call_and_await (processSTCPayiOS amount currency description) lateness w)
  /\ echoes_success amount currency
       (call_and_await (processSTCPayAndroid amount currency description) lateness w)
  /\ echoes_success amount currency
       (call_and_await (processTabby amount currency description metadata) lateness w).
Proof.
  unfold echoes_success.
  rewrite processCreditCard_eval, processSTCPayiOS_eval, processSTCPayAndroid_eval,
    processTabby_eval.
  repeat split; eexists _, _; repeat split; reflexivity.
Qed.

(** * Further properties *)

(** ** Decimal renderings and tags *)

Lemma string_of_Z_parse (z : Z) : Z_of_string (string_of_Z z) = Some z.
Proof.
  unfold Z_of_string, string_of_Z.
  rewrite NilZero.isi.
  - cbn [option_map]. f_equal. apply DecimalZ.of_to.
  - destruct z as [| p | p]; cbn; try discriminate.
    intros [= H]. exact (Unsigned.to_uint_nonnil p H).
  - destruct z as [| p | p]; cbn; try discriminate.
    intros [= H]. exact (Unsigned.to_uint_nonnil p H).
Qed.

Lemma string_of_Z_inj (z1 z2 : Z) : string_of_Z z1 = string_of_Z z2 -> z1 = z2.
Proof.
  intros H. apply (f_equal Z_of_string) in H.
  rewrite !string_of_Z_parse in H. congruence.
Qed.

Lemma append_inv_head (t s1 s2 : string) : t ++ s1 = t ++ s2 -> s1 = s2.
Proof.
  induction t as [| a t IH]; [trivial |].
  change (String a t ++ s1) with (String a (t ++ s1)).
  change (String a t ++ s2) with (String a (t ++ s2)).
  intros [= H]. exact (IH H).
Qed.

(** Strings that start with two tags, neither a prefix of the other, differ. *)
Lemma append_tags_differ (t1 t2 s1 s2 : string) :
  String.prefix t1 t2 = false -> String.prefix t2 t1 = false ->
  t1 ++ s1 <> t2 ++ s2.
Proof.
  revert t2. induction t1 as [| a t1 IH]; intros [| b t2]; cbn [String.prefix]; try discriminate.
  change (String a t1 ++ s1) with (String a (t1 ++ s1)).
  change (String b t2 ++ s2) with (String b (t2 ++ s2)).
  intros H1 H2 [= Hab H].
  subst b. destruct (ascii_dec a a) as [_ | Hne]; [| contradiction].
  exact (IH t2 H1 H2 H).
Qed.

(** The tables agree with the methods. *)
Lemma outcome_eq (m : Method) (amount : number) (currency description : string)
    (metadata : JsVal) (lateness : N) (w : World) :
  outcome m amount currency description metadata lateness w
  = expected m amount currency description lateness w.
Proof.
  unfold outcome, expected.
  destruct m; cbn [invoke allowed_on]; try reflexivity.
  - destruct (String.eqb_spec (Platform_OS w) "ios") as [Hos | Hos].
    + rewrite processApplePay_eval_ios by assumption. reflexivity.
    + unfold call_and_await. rewrite processApplePay_eval_other by assumption. reflexivity.
  - destruct (String.eqb_spec (Platform_OS w) "android") as [Hos | Hos].
    + rewrite processGooglePay_eval_android by assumption. reflexivity.
    + unfold call_and_await. rewrite processGooglePay_eval_other by assumption. reflexivity.
Qed.

(** ** Every method at once *)

Lemma outcome_resolved (m : Method) (amount : number) (currency description : string)
    (metadata : JsVal) (lateness : N) (w : World) (r : PaymentResult.t) (w' : World) :
  outcome m amount currency description metadata lateness w = (Resolved r, w') ->
  allowed_on m (Platform_OS w) = true
  /\ w' = fired (nominal_delay m) lateness
            (processing_line (log_prefix m) amount currency description) w
  /\ r = issued (id_tag m) w' amount currency (method_id m)
           (fst (plan m amount)) (snd (plan m amount)).
Proof.
  rewrite outcome_eq. unfold expected.
  destruct (allowed_on m (Platform_OS w)); [| discriminate].
  intros [= <- <-]. repeat split.
Qed.

Lemma id_tags_differ (m1 m2 : Method) (s1 s2 : string) :
  m1 <> m2 -> id_tag m1 ++ s1 <> id_tag m2 ++ s2.
Proof.
  intros Hne.
  destruct m1, m2; try contradiction; apply append_tags_differ; reflexivity.
Qed.

Lemma issued_id_inj (tag : string) (w1 w2 : World) a1 c1 p1 i1 j1 a2 c2 p2 i2 j2 :
  PaymentResult.transactionId (issued tag w1 a1 c1 p1 i1 j1)
  = PaymentResult.transactionId (issued tag w2 a2 c2 p2 i2 j2)
  <-> clock w1 = clock w2.
Proof.
  cbn [issued PaymentResult.transactionId]. split.
  - intros H. apply append_inv_head in H. exact (string_of_Z_inj _ _ H).
  - intros ->. reflexivity.
Qed.

(** ** Transaction ids *)

(** X1: two payments resolved by the same method carry the same transaction
    id exactly when their timers fire at the same millisecond, whatever the
    amounts, currencies, descriptions and metadata: the id is the method's tag
    followed by the clock reading, and nothing of the payment enters it. *)
Theorem transactionId_same_method
    (m : Method)
    (amount1 : number) (currency1 description1 : string) (metadata1 : JsVal)
    (lateness1 : N) (w1 : World) (r1 : PaymentResult.t) (w1' : World)
    (amount2 : number) (currency2 description2 : string) (metadata2 : JsVal)
    (lateness2 : N) (w2 : World) (r2 : PaymentResult.t) (w2' : World) :
  outcome m amount1 currency1 description1 metadata1 lateness1 w1 = (Resolved r1, w1') ->
  outcome m amount2 currency2 description2 metadata2 lateness2 w2 = (Resolved r2, w2') ->
  (PaymentResult.transactionId r1 = PaymentResult.transactionId r2
   <-> clock w1 + Z.of_N lateness1 = clock w2 + Z.of_N lateness2).
Proof.
  intros H1 H2.
  apply outcome_resolved in H1 as (_ & -> & ->).
  apply outcome_resolved in H2 as (_ & -> & ->).
  rewrite issued_id_inj. cbn [fired clock]. lia.
Qed.

Lemma transactionId_same_method_witness :
  exists r1 w1' r2 w2',
    outcome Tabby hundred "SAR" "phone" VUndefined 5 world0 = (Resolved r1, w1')
    /\ outcome Tabby (num_of_Z 4) "USD" "cable" (VObject []) 0 (advance 5 world0)
       = (Resolved r2, w2')
    /\ PaymentResult.amount r1 <> PaymentResult.amount r2
    /\ PaymentResult.transactionId r1 = PaymentResult.transactionId r2.
Proof.
  eexists _, _, _, _. split; [reflexivity |]. split; [reflexivity |].
  split; [discriminate |].
  exact (proj2 (transactionId_same_method Tabby
                  hundred "SAR" "phone" VUndefined 5 world0 _ _
                  (num_of_Z 4) "USD" "cable" (VObject []) 0 (advance 5 world0) _ _
                  eq_refl eq_refl) eq_refl).
Defined.

(** X2: payments resolved by two different methods never carry the same
    transaction id, whenever and wherever they were made: the six tags keep
    the ids apart, the two STC Pay tags included. *)
Theorem transactionId_names_method
    (m1 m2 : Method)
    (amount1 : number) (currency1 description1 : string) (metadata1 : JsVal)
    (lateness1 : N) (w1 : World) (r1 : PaymentResult.t) (w1' : World)
    (amount2 : number) (currency2 description2 : string) (metadata2 : JsVal)
    (lateness2 : N) (w2 : World) (r2 : PaymentResult.t) (w2' : World) :
  outcome m1 amount1 currency1 description1 metadata1 lateness1 w1 = (Resolved r1, w1') ->
  outcome m2 amount2 currency2 description2 metadata2 lateness2 w2 = (Resolved r2, w2') ->
  m1 <> m2 ->
  PaymentResult.transactionId r1 <> PaymentResult.transactionId r2.
Proof.
  intros H1 H2 Hne.
  apply outcome_resolved in H1 as (_ & -> & ->).
  apply outcome_resolved in H2 as (_ & -> & ->).
  cbn [issued PaymentResult.transactionId]. apply id_tags_differ. exact Hne.
Qed.

Lemma transactionId_names_method_witness :
  exists r1 w1' r2 w2',
    outcome STCPayiOS hundred "SAR" "deal" VUndefined 0 world0 = (Resolved r1, w1')
    /\ outcome STCPayAndroid hundred "SAR" "deal" VUndefined 0 world0 = (Resolved r2, w2')
    /\ PaymentResult.transactionId r1 <> PaymentResult.transactionId r2.
Proof.
  eexists _, _, _, _. split; [reflexivity |]. split; [reflexivity |].
  exact (transactionId_names_method STCPayiOS STCPayAndroid
           hundred "SAR" "deal" VUndefined 0 world0 _ _
           hundred "SAR" "deal" VUndefined 0 world0 _ _
           eq_refl eq_refl ltac:(discriminate)).
Defined.

(** ** The catalogue and the methods *)

Lemma catalogue_eq (w : World) :
  call_and_await getAvailablePaymentMethods 0 w
  = (Normal (Resolved (commonMethods
                         ++ [if String.eqb (Platform_OS w) "ios"
                             then PaymentMethod.mk "apple-pay" "Apple Pay" "logo-apple"
                             else PaymentMethod.mk "google-pay" "Google Pay" "logo-google"])%list),
     w).
Proof.
  unfold call_and_await, getAvailablePaymentMethods, async, mbind, sync_bind, get_Platform_OS.
  destruct (String.eqb (Platform_OS w) "ios"); reflexivity.
Qed.

Lemma catalogue_ids (w : World) :
  exists cat,
    getAvailablePaymentMethods w = (Normal (Fulfilled cat), w)
    /\ map PaymentMethod.id cat
       = ["credit-card"; "mada"; "stc-pay"; "tabby"; platform_method_id (Platform_OS w)].
Proof.
  unfold getAvailablePaymentMethods, async, mbind, sync_bind, get_Platform_OS, platform_method_id.
  destruct (String.eqb (Platform_OS w) "ios"); eexists; split; reflexivity.
Qed.

(** X4: on no platform do [processApplePay] and [processGooglePay] both
    resolve.  On ["ios"] only the first does, on ["android"] only the second,
    and on every other platform value both are rejected, each with its own
    error. *)
Theorem wallets_never_both_resolve
    (amount1 amount2 : number) (currency1 description1 currency2 description2 : string)
    (metadata1 metadata2 : JsVal) (lateness1 lateness2 : N) (w : World) :
  match fst (outcome ApplePay amount1 currency1 description1 metadata1 lateness1 w),
        fst (outcome GooglePay amount2 currency2 description2 metadata2 lateness2 w) with
  | Resolved _, Failed e => Platform_OS w = "ios" /\ e = google_pay_error
  | Failed e, Resolved _ => Platform_OS w = "android" /\ e = apple_pay_error
  | Failed e1, Failed e2 =>
      Platform_OS w <> "ios" /\ Platform_OS w <> "android"
      /\ e1 = apple_pay_error /\ e2 = google_pay_error
  | _, _ => False
  end.
Proof.
  rewrite !outcome_eq. unfold expected. cbn [allowed_on].
  destruct (String.eqb_spec (Platform_OS w) "ios") as [Hi | Hi];
    destruct (String.eqb_spec (Platform_OS w) "android") as [Ha | Ha];
    cbn [fst]; auto.
  rewrite Hi in Ha. discriminate Ha.
Qed.

(** X5: on a platform that is neither ["ios"] nor ["android"] the catalogue
    still offers ["google-pay"], and both wallet methods are rejected there:
    the one platform-specific method on offer cannot be paid with. *)
Theorem offered_wallet_rejected_elsewhere
    (amount : number) (currency description : string) (metadata : JsVal)
    (lateness : N) (w : World) :
  Platform_OS w <> "ios" -> Platform_OS w <> "android" ->
  exists cat,
    getAvailablePaymentMethods w = (Normal (Fulfilled cat), w)
    /\ In "google-pay" (map PaymentMethod.id cat)
    /\ outcome GooglePay amount currency description metadata lateness w
       = (Failed google_pay_error, w)
    /\ outcome ApplePay amount currency description metadata lateness w
       = (Failed apple_pay_error, w).
Proof.
  intros Hi Ha. destruct (catalogue_ids w) as (cat & Hcat & Hids).
  exists cat. split; [exact Hcat |]. rewrite Hids, !outcome_eq.
  unfold expected, platform_method_id. cbn [allowed_on].
  destruct (String.eqb_spec (Platform_OS w) "ios") as [? | _]; [contradiction |].
  destruct (String.eqb_spec (Platform_OS w) "android") as [? | _]; [contradiction |].
  split; [cbn; tauto | split; reflexivity].
Qed.

Lemma offered_wallet_rejected_elsewhere_witness :
  exists cat,
    getAvailablePaymentMethods web_world = (Normal (Fulfilled cat), web_world)
    /\ In "google-pay" (map PaymentMethod.id cat)
    /\ outcome GooglePay hundred "SAR" "deal" VUndefined 0 web_world
       = (Failed google_pay_error, web_world)
    /\ outcome ApplePay hundred "SAR" "deal" VUndefined 0 web_world
       = (Failed apple_pay_error, web_world).
Proof.
  apply (offered_wallet_rejected_elsewhere hundred "SAR" "deal" VUndefined 0 web_world);
    discriminate.
Defined.

(** X6: the [paymentMethod] of every resolved payment is an id that
    [getAvailablePaymentMethods] offers on the platform the payment was made
    on. *)
Theorem resolved_method_is_offered
    (m : Method) (amount : number) (currency description : string) (metadata : JsVal)
    (lateness : N) (w : World) (r : PaymentResult.t) (w' : World) :
  outcome m amount currency description metadata lateness w = (Resolved r, w') ->
  exists cat,
    getAvailablePaymentMethods w = (Normal (Fulfilled cat), w)
    /\ In (PaymentResult.paymentMethod r) (map PaymentMethod.id cat).
Proof.
  intros H. apply outcome_resolved in H as (Hallowed & _ & ->).
  destruct (catalogue_ids w) as (cat & Hcat & Hids).
  exists cat. split; [exact Hcat |]. rewrite Hids.
  cbn [issued PaymentResult.paymentMethod]. unfold platform_method_id.
  destruct m; cbn [allowed_on method_id] in *; try (cbn; tauto).
  - rewrite Hallowed. cbn. tauto.
  - apply String.eqb_eq in Hallowed. rewrite Hallowed. cbn. tauto.
Qed.

Lemma resolved_method_is_offered_witness :
  exists r w' cat,
    outcome GooglePay hundred "SAR" "deal" VUndefined 0 android_world = (Resolved r, w')
    /\ getAvailablePaymentMethods android_world = (Normal (Fulfilled cat), android_world)
    /\ In (PaymentResult.paymentMethod r) (map PaymentMethod.id cat).
Proof.
  eexists _, _.
  destruct (resolved_method_is_offered GooglePay hundred "SAR" "deal" VUndefined 0
              android_world _ _ eq_refl) as (cat & Hcat & Hin).
  exists cat. split; [reflexivity |]. split; [exact Hcat | exact Hin].
Defined.

(** X7: ["mada"] is offered on every platform, and no processing method
    ever resolves with ["mada"] as its [paymentMethod]. *)
Theorem mada_offered_never_processed
    (m : Method) (amount : number) (currency description : string) (metadata : JsVal)
    (lateness : N) (w : World) :
  (exists cat,
     getAvailablePaymentMethods w = (Normal (Fulfilled cat), w)
     /\ In "mada" (map PaymentMethod.id cat))
  /\ match fst (outcome m amount currency description metadata lateness w) with
     | Resolved r => PaymentResult.paymentMethod r <> "mada"
     | _ => True
     end.
Proof.
  split.
  - destruct (catalogue_ids w) as (cat & Hcat & Hids).
    exists cat. split; [exact Hcat |]. rewrite Hids. cbn. tauto.
  - rewrite outcome_eq. unfold expected.
    destruct (allowed_on m (Platform_OS w)); cbn [fst]; [| exact I].
    destruct m; discriminate.
Qed.


(** X9: a resolved payment carries [installments] and [installmentAmount]
    exactly when its [paymentMethod] is ["tabby"]; every other method leaves
    both fields out. *)
Theorem installments_only_for_tabby
    (m : Method) (amount : number) (currency description : string) (metadata : JsVal)
    (lateness : N) (w : World) :
  match fst (outcome m amount currency description metadata lateness w) with
  | Resolved r =>
      (PaymentResult.paymentMethod r = "tabby"
       /\ PaymentResult.installments r = Some (num_of_Z 4)
       /\ PaymentResult.installmentAmount r = Some (js_div amount (num_of_Z 4)))
      \/ (PaymentResult.paymentMethod r <> "tabby"
          /\ PaymentResult.installments r = None
          /\ PaymentResult.installmentAmount r = None)
  | _ => True
  end.
Proof.
  rewrite outcome_eq. unfold expected.
  destruct (allowed_on m (Platform_OS w)); cbn [fst]; [| exact I].
  destruct m; cbn; first [left; repeat split; reflexivity | right; repeat split; discriminate].
Qed.

(** ** The console *)

(** X10: an awaited payment always settles.  When it resolves, exactly one
    line has been added to the console, and that line carries the amount, the
    currency and the description the method was given; when it is rejected,
    nothing has been logged.  The platform is untouched either way. *)
Theorem payment_logs_one_line
    (m : Method) (amount : number) (currency description : string) (metadata : JsVal)
    (lateness : N) (w : World) :
  match outcome m amount currency description metadata lateness w with
  | (Resolved _, w') =>
      Platform_OS w' = Platform_OS w
      /\ exists prefix : string,
           console w'
           = (console w
              ++ [[Lit prefix; Num amount; Lit " "; Str currency; Lit " for ";
                   Str description]])%list
  | (Failed _, w') => Platform_OS w' = Platform_OS w /\ console w' = console w
  | (Unsettled, _) => False
  end.
Proof.
  rewrite outcome_eq. unfold expected.
  destruct (allowed_on m (Platform_OS w)); [| split; reflexivity].
  cbn [fired Platform_OS console]. split; [reflexivity |].
  exists (log_prefix m). reflexivity.
Qed.

Lemma verifyPayment_eval (transactionId : string) (lateness : N) (w : World) :
  call_and_await (verifyPayment transactionId) lateness w
  = (Normal (Resolved (Verification.mk transactionId "completed" true)),
     fired 1000 lateness [Lit "Verifying payment: "; Str transactionId] w).
Proof. reflexivity. Qed.

Lemma perform_invariant (c : Call) (w : World) :
  Platform_OS (perform c w) = Platform_OS w
  /\ exists extra, console (perform c w) = (console w ++ extra)%list
                   /\ (length extra <= 1)%nat.
Proof.
  destruct c as [m amount currency description metadata lateness | tid lateness |];
    cbn [perform].
  - pose proof (outcome_eq m amount currency description metadata lateness w) as H.
    unfold outcome in H.
    destruct (call_and_await (invoke m amount currency description metadata) lateness w)
      as [[s | e] w'] eqn:Hrun; cbn [snd].
    + unfold expected in H. destruct (allowed_on m (Platform_OS w)).
      * injection H as _ ->. cbn [fired Platform_OS console].
        split; [reflexivity |]. eexists. split; [reflexivity | cbn; lia].
      * injection H as _ ->. split; [reflexivity |].
        exists []. rewrite app_nil_r. split; [reflexivity | cbn; lia].
    + exfalso. destruct m; cbn [invoke] in Hrun;
        unfold call_and_await, processCreditCard, processApplePay, processGooglePay,
          processSTCPayiOS, processSTCPayAndroid, processTabby in Hrun;
        match type of Hrun with
        | context [async ?b w] =>
            destruct (async_never_throws b w) as (p & w0 & Hp); rewrite Hp in Hrun
        end;
        destruct (await p lateness w0); discriminate Hrun.
  - rewrite verifyPayment_eval. cbn [snd fired Platform_OS console].
    split; [reflexivity |]. eexists. split; [reflexivity | cbn; lia].
  - rewrite catalogue_eq. cbn [snd]. split; [reflexivity |].
    exists []. rewrite app_nil_r. split; [reflexivity | cbn; lia].
Qed.

(** X11: whatever sequence of payments, verifications and catalogue
    queries a client makes, awaiting each, the platform stays what it was,
    and the console keeps every earlier line, in order, and gains at most one
    line per call: no call reads, rewrites or clears what was logged. *)
Theorem calls_preserve_world (cs : list Call) (w : World) :
  Platform_OS (perform_all cs w) = Platform_OS w
  /\ exists extra, console (perform_all cs w) = (console w ++ extra)%list
                   /\ (length extra <= length cs)%nat.
Proof.
  unfold perform_all. revert w.
  induction cs as [| c cs IH]; intros w; cbn [fold_left].
  - split; [reflexivity |].
    exists []. rewrite app_nil_r. split; [reflexivity | cbn; lia].
  - destruct (perform_invariant c w) as (Hos & e1 & He1 & Hl1).
    destruct (IH (perform c w)) as (Hos' & e2 & He2 & Hl2).
    split; [congruence |].
    exists (e1 ++ e2)%list. split.
    + rewrite He2, He1, app_assoc. reflexivity.
    + rewrite length_app. cbn [length]. lia.
Qed.

(** X12: on every platform the ids of the offered payment methods are
    pairwise distinct. *)
Theorem catalogue_ids_distinct (w : World) :
  exists cat,
    getAvailablePaymentMethods w = (Normal (Fulfilled cat), w)
    /\ List.NoDup (map PaymentMethod.id cat).
Proof.
  destruct (catalogue_ids w) as (cat & Hcat & Hids).
  exists cat. split; [exact Hcat |]. rewrite Hids. unfold platform_method_id.
  destruct (String.eqb (Platform_OS w) "ios");
    repeat (constructor; [cbn; intuition discriminate |]); constructor.
Qed.

(** ** The price table, continued *)

Lemma Object_prototype_None (key : string) :
  Object_prototype !! key = None <-> ~ In key inherited_names.
Proof.
  unfold Object_prototype. rewrite <- not_elem_of_list_to_map, list_elem_of_In.
  reflexivity.
Qed.

Lemma getProductPrice_inherited_not_number (productId : string) (x : number) :
  In productId inherited_names -> getProductPrice productId <> VNumber x.
Proof.
  intros Hin Hx. cbn [In inherited_names] in Hin.
  repeat (destruct Hin as [<- | Hin]; [vm_compute in Hx; discriminate Hx |]).
  exact Hin.
Qed.

(** X13: [getProductPrice] returns a number exactly for the identifiers that
    are not names inherited from [Object.prototype]; for each of those twelve
    names it returns the inherited member instead. *)
Theorem getProductPrice_number_iff (productId : string) :
  (exists x : number, getProductPrice productId = VNumber x)
  <-> ~ In productId inherited_names.
Proof.
  split.
  - intros [x Hx] Hin. exact (getProductPrice_inherited_not_number _ _ Hin Hx).
  - intros Hin. apply Object_prototype_None in Hin.
    exact (proj2 (getProductPrice_outside_prototype productId Hin)).
Qed.

(** X14: whenever [getProductPrice] returns a number, it is one of the four
    prices of the table: 799, 999, 1199 or 1799.  No identifier is priced
    below the default. *)
Theorem getProductPrice_range (productId : string) (x : number) :
  getProductPrice productId = VNumber x ->
  In x (map num_of_Z [799; 999; 1199; 1799]).
Proof.
  intros Hx.
  assert (~ In productId inherited_names) as Hin
    by (intros Hin; exact (getProductPrice_inherited_not_number _ _ Hin Hx)).
  apply Object_prototype_None in Hin.
  destruct (getProductPrice_outside_prototype productId Hin) as [Heq _].
  rewrite Heq in Hx. clear Heq.
  destruct (productPrices !! productId) as [v |] eqn:Hown; cbn [default from_option id] in Hx.
  - apply elem_of_list_to_map_2 in Hown. subst v.
    repeat (apply elem_of_cons in Hown as [Hown | Hown];
            [injection Hown as _ ->; cbn [map In]; auto 10 |]).
    apply elem_of_nil in Hown. contradiction.
  - injection Hx as <-. cbn [map In]. auto 10.
Qed.

Lemma getProductPrice_range_witness :
  getProductPrice "samsung-fold6" = VNumber (num_of_Z 1799)
  /\ In (num_of_Z 1799) (map num_of_Z [799; 999; 1199; 1799]).
Proof.
  split; [reflexivity |].
  exact (getProductPrice_range "samsung-fold6" (num_of_Z 1799) eq_refl).
Defined.

(** X15: every identifier listed in the table gets exactly its listed
    entry: an own property is found before any inherited one, and no listed
    price is falsy, so [||] never replaces it by the default. *)
Theorem getProductPrice_listed (productId : string) (v : JsVal) :
  productPrices !! productId = Some v ->
  getProductPrice productId = v.
Proof.
  intros Hown. destruct (productPrices_numbers _ _ Hown) as (x & -> & Hx).
  unfold getProductPrice, js_or, get_property. rewrite Hown.
  cbn [truthy]. rewrite Hx. reflexivity.
Qed.

Lemma getProductPrice_listed_witness :
  productPrices !! "samsung-flip6" = Some (VNumber (num_of_Z 999))
  /\ getProductPrice "samsung-flip6" = VNumber (num_of_Z 999).
Proof.
  split; [reflexivity |].
  exact (getProductPrice_listed "samsung-flip6" (VNumber (num_of_Z 999)) eq_refl).
Defined.

(** ** The installment plan *)

(** Multiplying a normal double by 4 raises its exponent by two. *)
Lemma js_mul_4_normal (s : bool) (m : positive) (e : Z) :
  digits2_pos m = 53%positive -> -1074 <= e <= 969 ->
  js_mul (S754_finite s m e) (num_of_Z 4) = S754_finite s m (e + 2).
Proof.
  intros Hd He.
  change (num_of_Z 4) with (S754_finite false 4503599627370496 (-50)).
  unfold js_mul, SFmul. rewrite xorb_false_r.
  change PosDef.Pos.mul with Pos.mul. rewrite Pos.mul_comm.
  let t := eval cbv in (Pos.iter xO m 52) in
  change (4503599627370496 * m)%positive with t.
  unfold binary_round_aux, shr_fexp at 1.
  unfold Zdigits2. cbn [digits2_pos]. rewrite Hd. rewrite fexp_eq.
  change IntDef.Z.add with Z.add.
  match goal with |- context [Z.max ?a ?b - ?c] =>
    replace (Z.max a b - c) with 52 by (cbn; lia) end.
  cbn [shr shr_record_of_loc iter_pos shr_1 shr_m loc_of_shr_record round_nearest_even].
  change IntDef.Z.add with Z.add.
  let t := eval cbv in (Pos.iter xO m 52) in
  change (@SpecFloat.iter_pos _ shr_1 52 (Build_shr_record (Zpos t) false false))
    with (Build_shr_record (Zpos m) false false).
  cbn [shr_m loc_of_shr_record round_nearest_even].
  replace (e + -50 + 52) with (e + 2) by lia.
  rewrite shr_fexp_53 by (assumption || lia).
  cbn [shr_m]. change IntDef.Z.leb with Z.leb.
  destruct (Z.leb_spec (e + 2) (emax - prec)) as [_ | H];
    [reflexivity | unfold emax, prec in H; lia].
Qed.

(** X16: for every normal amount whose quarter is normal, the plan that
    [processTabby] resolves with adds up: [installmentAmount * installments]
    is the amount again, to the last bit. *)
Theorem tabby_plan_adds_up
    (amount : number) (currency description : string) (metadata : JsVal)
    (lateness : N) (w : World) :
  has_normal_quarter amount = true ->
  exists r w' n q,
    call_and_await (processTabby amount currency description metadata) lateness w
    = (Normal (Resolved r), w')
    /\ PaymentResult.installments r = Some n
    /\ PaymentResult.installmentAmount r = Some q
    /\ js_mul q n = amount.
Proof.
  intros Hn. eexists _, _, _, _. rewrite processTabby_eval.
  split; [reflexivity |]. split; [reflexivity |]. split; [reflexivity |].
  destruct amount as [| | | s m e]; try discriminate Hn. cbn [has_normal_quarter] in Hn.
  apply andb_prop in Hn as [Hn He2]. apply andb_prop in Hn as [Hd He1].
  apply Pos.eqb_eq in Hd. apply Z.leb_le in He1, He2.
  rewrite js_div_4_normal by (assumption || lia).
  rewrite js_mul_4_normal by (assumption || lia).
  f_equal. lia.
Qed.

Lemma tabby_plan_adds_up_witness :
  exists r w' n q,
    call_and_await (processTabby hundred "SAR" "deal" VUndefined) 0 world0
    = (Normal (Resolved r), w')
    /\ PaymentResult.installments r = Some n
    /\ PaymentResult.installmentAmount r = Some q
    /\ js_mul q n = hundred.
Proof.
  exact (tabby_plan_adds_up hundred "SAR" "deal" VUndefined 0 world0 eq_refl).
Defined.

(** ** The tab bar *)

Ltac case_route r :=
  destruct (String.eqb_spec r "Home") as [-> | ?];
  [| destruct (String.eqb_spec r "Deals") as [-> | ?];
     [| destruct (String.eqb_spec r "Profile") as [-> | ?]]].

(** X17: for each of the three tabs of the navigator, focused or not, the
    icon is never the fallback ["help-circle"] and the size and colour it was
    given are passed through to [Ionicons]; the unfocused icon name is the
    focused one followed by ["-outline"]. *)
Theorem tabBarIcon_registered_tabs
    (route_name : string) (focused : bool) (color : string) (size : number) :
  In route_name Tab_screens ->
  Ionicons.name (tabBarIcon route_name focused color size) <> "help-circle"
  /\ Ionicons.name (tabBarIcon route_name false color size)
     = Ionicons.name (tabBarIcon route_name true color size) ++ "-outline"
  /\ Ionicons.size (tabBarIcon route_name focused color size) = size
  /\ Ionicons.color (tabBarIcon route_name focused color size) = color.
Proof.
  intros Hin. cbn [In Tab_screens] in Hin.
  destruct Hin as [<- | [<- | [<- | []]]]; destruct focused;
    repeat split; discriminate.
Qed.

Lemma tabBarIcon_registered_tabs_witness :
  In "Deals" Tab_screens
  /\ Ionicons.name (tabBarIcon "Deals" false "gray" (num_of_Z 24)) = "pricetag-outline"
  /\ Ionicons.size (tabBarIcon "Deals" true "gray" (num_of_Z 24)) = num_of_Z 24
  /\ Ionicons.color (tabBarIcon "Deals" true "gray" (num_of_Z 24)) = "gray".
Proof.
  split; [exact (or_intror (or_introl eq_refl)) |].
  exact (proj2 (tabBarIcon_registered_tabs "Deals" true "gray" (num_of_Z 24)
                  (or_intror (or_introl eq_refl)))).
Defined.

(** X18: the icon is ["help-circle"] exactly for the route names that are
    not one of the three tabs, focused or not; names are compared exactly. *)
Theorem tabBarIcon_fallback_iff (route_name : string) (focused : bool) (color : string)
    (size : number) :
  Ionicons.name (tabBarIcon route_name focused color size) = "help-circle"
  <-> ~ In route_name Tab_screens.
Proof.
  cbn [tabBarIcon Ionicons.name Tab_screens In]. unfold iconName.
  case_route route_name; destruct focused; cbn;
    split; try discriminate; try tauto; intuition congruence.
Qed.

(** X19: an icon name of a tab tells the tab and its focus: if a tab's icon
    equals the icon computed for any route name and focus, the route is that
    tab and the focus is the same. *)
Theorem tabBarIcon_identifies_tab
    (route1 route2 : string) (focused1 focused2 : bool) (color1 color2 : string)
    (size1 size2 : number) :
  In route1 Tab_screens ->
  Ionicons.name (tabBarIcon route1 focused1 color1 size1)
  = Ionicons.name (tabBarIcon route2 focused2 color2 size2) ->
  route1 = route2 /\ focused1 = focused2.
Proof.
  intros Hin. cbn [In Tab_screens] in Hin.
  cbn [tabBarIcon Ionicons.name]. unfold iconName at 2.
  destruct Hin as [<- | [<- | [<- | []]]];
    case_route route2; destruct focused1, focused2; cbn;
    intros H; try discriminate H; split; reflexivity.
Qed.

Lemma tabBarIcon_identifies_tab_witness :
  In "Home" Tab_screens
  /\ Ionicons.name (tabBarIcon "Home" false "gray" (num_of_Z 24))
     = Ionicons.name (tabBarIcon "Home" false "blue" (num_of_Z 30))
  /\ "Home" = "Home" /\ false = false.
Proof.
  split; [exact (or_introl eq_refl) |]. split; [reflexivity |].
  exact (tabBarIcon_identifies_tab "Home" "Home" false false "gray" "blue"
           (num_of_Z 24) (num_of_Z 30) (or_introl eq_refl) eq_refl).
Defined.
